(** * Event recording handlers of the phishing campaign manager

    A shallow embedding of [api/routers/events.py]: the five tracking
    handlers ([track_open], [track_click], [track_submitted],
    [track_reported], [track_downloaded]) and the listing handler
    [get_events], over an explicit model of the SQLAlchemy session they
    receive.  Handlers are computations in a state-and-exception monad
    whose state is the session; Python's [try]/[except] is [try_except]. *)

From Stdlib Require Import ZArith String Ascii List Lia.
From stdpp Require Import base option list gmap strings pretty.

Local Open Scope Z_scope.

(** ** Data model *)

(** Modelled from the spec: the [models] module ([Campaign], [Employee],
    [Event], [EventType]) is not among the sources; the tables carry the
    columns that the handlers read and write and that section 3 of the
    specification lists. *)
Module Campaign.
Record t := mk { id : Z; name : string }.
End Campaign.

Module Employee.
Record t := mk { id : Z; email : string }.
End Employee.

Inductive EventType := OPEN | CLICK | SUBMITTED | REPORTED | DOWNLOADED_ATTACHMENT.

(** Modelled from the spec: [EventType.value], the string stored for a
    member of the enumeration, named as the specification names them. *)
Definition EventType_value (k : EventType) : string :=
  match k with
  | OPEN => "OPEN"
  | CLICK => "CLICK"
  | SUBMITTED => "SUBMITTED"
  | REPORTED => "REPORTED"
  | DOWNLOADED_ATTACHMENT => "DOWNLOADED_ATTACHMENT"
  end.

Module Event.
(** A persisted row of the events table. *)
Record t := mk {
  id : Z;
  email : string;
  ip : string;
  event_type : EventType;
  campaign_id : Z;
  employee_id : Z;
  timestamp : Z
}.

(** [models.Event(email=..., campaign_id=..., employee_id=...,
    event_type=..., ip=...)]: an object not yet flushed; the store
    gives it its [id] and [timestamp] when it is inserted. *)
Record transient := new {
  new_email : string;
  new_campaign_id : Z;
  new_employee_id : Z;
  new_event_type : EventType;
  new_ip : string
}.
End Event.

(** The pydantic model [EventResponse]. *)
Module EventResponse.
Record t := mk {
  id : Z;
  email : string;
  ip : string;
  event_type : string;
  campaign_id : Z;
  employee_id : Z;
  campaign_name : string;
  timestamp : Z
}.
End EventResponse.

(** The relational store: three tables and the clock that stamps new rows. *)
Record Database := mkDatabase {
  campaigns : list Campaign.t;
  employees : list Employee.t;
  events : list Event.t;
  now : Z
}.

Definition set_events (d : Database) (evs : list Event.t) : Database :=
  {| campaigns := campaigns d; employees := employees d;
     events := evs; now := now d |}.

(** A SQLAlchemy [Session]: the store and the objects added but not yet
    committed. *)
Record Session := mkSession {
  store : Database;
  pending : list Event.transient
}.

(** The part of a Starlette [Request] that the handlers read:
    [request.client.host] and the submitted form. *)
Record Request := mkRequest {
  client_host : string;
  form : gmap string string
}.

Inductive Value :=
| VInt (n : Z)
| VStr (s : string)
| VRequest (r : Request).

Definition bytes := list Z.

Inductive Response :=
| RawResponse (content : bytes) (media_type : string)
| TemplateResponse (name : string) (context : list (string * Value))
| JSONResponse (body : list (string * string)).

Inductive Exception :=
| HTTPException (status_code : Z) (detail : string)
| ValueError
| BinasciiError.

(** What the handlers take from the Python runtime and the framework
    without the repository defining it: the built-in [int] on a string
    ([None] stands for [ValueError]) and [str] on an exception. *)
Record Runtime := mkRuntime {
  int_of_str : string → option Z;
  str_of_exception : Exception → string
}.

(** ** The handler monad *)

Definition handler (A : Type) : Type := Session → (Exception + A) * Session.

#[global] Instance handler_ret : MRet handler :=
  λ A (a : A) s, (inr a, s).

#[global] Instance handler_bind : MBind handler :=
  λ A B (f : A → handler B) (m : handler A) s,
    match m s with
    | (inr a, s') => f a s'
    | (inl e, s') => (inl e, s')
    end.

Definition raise {A} (e : Exception) : handler A := λ s, (inl e, s).

Definition try_except {A} (body : handler A) (except : Exception → handler A)
  : handler A :=
  λ s, match body s with
       | (inr a, s') => (inr a, s')
       | (inl e, s') => except e s'
       end.

Definition gets {A} (f : Database → A) : handler A := λ s, (inr (f (store s)), s).

(** ** Session operations *)

(** Modelled from the spec: identifiers of events are generated by the
    store, unique and increasing; the next one is one more than the
    largest identifier in the table. *)
Definition next_id (rows : list Event.t) : Z :=
  1 + foldr Z.max 0 (Event.id <$> rows).

Definition insert_event (stamp : Z) (rows : list Event.t) (e : Event.transient)
  : list Event.t :=
  rows ++ [Event.mk (next_id rows) (Event.new_email e) (Event.new_ip e)
             (Event.new_event_type e) (Event.new_campaign_id e)
             (Event.new_employee_id e) stamp].

Definition db_add (e : Event.transient) : handler () :=
  λ s, (inr (), {| store := store s; pending := pending s ++ [e] |}).

Definition db_commit : handler () :=
  λ s, (inr (),
        {| store := set_events (store s)
                      (foldl (insert_event (now (store s))) (events (store s)) (pending s));
           pending := [] |}).

Definition db_rollback : handler () :=
  λ s, (inr (), {| store := store s; pending := [] |}).

(** [db.refresh(event)] re-reads the row just written; it changes nothing. *)
Definition db_refresh : handler () := mret ().

(** [query.first()] *)
Definition first {A} (rows : list A) : option A := head rows.

(** Modelled from the spec: [database.get_db] is not among the sources; it
    hands every request a session of its own on the store and closes it
    when the request is over, whatever the outcome. *)
Definition serve {A} (h : handler A) (d : Database) : (Exception + A) * Database :=
  let '(r, s) := h {| store := d; pending := [] |} in (r, store s).

(** ** [base64.b64decode]

    The decoder of CPython's [binascii.a2b_base64] in its default,
    non-strict mode: characters outside the alphabet are skipped, a
    completed run of padding ends the input, and a quad left unfinished
    is an error. *)

Definition b64_value (c : ascii) : option Z :=
  let n := Z.of_N (N_of_ascii c) in
  if (65 <=? n) && (n <=? 90) then Some (n - 65)
  else if (97 <=? n) && (n <=? 122) then Some (n - 71)
  else if (48 <=? n) && (n <=? 57) then Some (n + 4)
  else if n =? 43 then Some 62
  else if n =? 47 then Some 63
  else None.

Fixpoint a2b_base64 (s : string) (quad_pos : nat) (leftchar : Z) (pads : nat)
    (bin_data : bytes) : option bytes :=
  match s with
  | EmptyString => match quad_pos with O => Some bin_data | _ => None end
  | String this_ch rest =>
    if Ascii.eqb this_ch "="%char then
      if Nat.leb 2 quad_pos then
        if Nat.leb 4 (quad_pos + S pads) then Some bin_data
        else a2b_base64 rest quad_pos leftchar (S pads) bin_data
      else a2b_base64 rest quad_pos leftchar pads bin_data
    else
      match b64_value this_ch with
      | None => a2b_base64 rest quad_pos leftchar pads bin_data
      | Some v =>
        match quad_pos with
        | 0%nat => a2b_base64 rest 1 v 0 bin_data
        | 1%nat => a2b_base64 rest 2 (Z.land v 15) 0
                     (bin_data ++ [Z.lor (Z.shiftl leftchar 2) (Z.shiftr v 4)])
        | 2%nat => a2b_base64 rest 3 (Z.land v 3) 0
                     (bin_data ++ [Z.lor (Z.shiftl leftchar 4) (Z.shiftr v 2)])
        | _ => a2b_base64 rest 0 0 0
                     (bin_data ++ [Z.lor (Z.shiftl leftchar 6) v])
        end
      end
  end.

Definition b64decode (s : string) : handler bytes :=
  match a2b_base64 s 0 0 0 [] with
  | Some b => mret b
  | None => raise BinasciiError
  end.

Definition ONE_PIXEL_GIF_BASE64 : string :=
  "R0lGODlhAQABAPAAAAAAAAAAACH5BAEAAAAALAAAAAABAAEAAAICRAEAOw==".

(** The bytes that [ONE_PIXEL_GIF_BASE64] stands for, written out. *)
Definition ONE_PIXEL_GIF : bytes :=
  [71; 73; 70; 56; 57; 97; 1; 0; 1; 0; 240; 0; 0; 0; 0; 0; 0; 0; 0; 33; 249;
   4; 1; 0; 0; 0; 0; 44; 0; 0; 0; 0; 1; 0; 1; 0; 0; 2; 2; 68; 1; 0; 59].

(** ** Truthiness *)

(** [form.get] gives [None] or a string; both [None] and the empty
    string are false. *)
Definition truthy_str (v : option string) : bool :=
  match v with
  | Some s => negb (String.eqb s "")
  | None => false
  end.

(** An [Optional[int]] is false when it is [None] and when it is [0]. *)
Definition truthy_int (v : option Z) : bool :=
  match v with
  | Some n => negb (n =? 0)
  | None => false
  end.

(** ** The handlers *)

Section Handlers.
Context (rt : Runtime).

(** [int(s)] *)
Definition int (s : string) : handler Z :=
  match int_of_str rt s with
  | Some n => mret n
  | None => raise ValueError
  end.

Definition str (e : Exception) : string := str_of_exception rt e.

Definition track_open (request : Request) (email : string) (campaign_id : Z)
  : handler Response :=
  try_except
    (ONE_PIXEL_GIF ← b64decode ONE_PIXEL_GIF_BASE64;
     campaign ← gets (λ d,
       first (filter (λ c, Campaign.id c = campaign_id) (campaigns d)));
     match campaign with
     | None => raise (HTTPException 404 "Campaign not found")
     | Some _ =>
       employee ← gets (λ d,
         first (filter (λ e, Employee.email e = email) (employees d)));
       match employee with
       | None => raise (HTTPException 404 "Employee not found")
       | Some employee =>
         let event :=
           Event.new email campaign_id (Employee.id employee) OPEN
             (client_host request) in
         db_add event;;
         db_commit;;
         db_refresh;;
         mret (RawResponse ONE_PIXEL_GIF "image/gif")
       end
     end)
    (λ e, match e with
          | HTTPException _ _ => db_rollback;; raise e
          | _ => db_rollback;; raise (HTTPException 500 (str e))
          end).

Definition track_click (request : Request) (email : string) (campaign_id : Z)
  : handler Response :=
  try_except
    (campaign ← gets (λ d,
       first (filter (λ c, Campaign.id c = campaign_id) (campaigns d)));
     match campaign with
     | None => raise (HTTPException 404 "Campaign not found")
     | Some _ =>
       employee ← gets (λ d,
         first (filter (λ e, Employee.email e = email) (employees d)));
       match employee with
       | None => raise (HTTPException 404 "Employee not found")
       | Some employee =>
         let event :=
           Event.new email campaign_id (Employee.id employee) CLICK
             (client_host request) in
         db_add event;;
         db_commit;;
         db_refresh;;
         mret (TemplateResponse "submission.html"
                 [("request", VRequest request);
                  ("campaign_id", VInt campaign_id);
                  ("employee_email", VStr email);
                  ("employee_id", VInt (Employee.id employee))])
       end
     end)
    (λ e, db_rollback;; raise (HTTPException 500 (str e))).

Definition track_submitted (request : Request) : handler Response :=
  try_except
    (let form := form request in
     let email := form !! "employee_email" in
     let campaign_id := form !! "campaign_id" in
     let employee_id := form !! "employee_id" in
     if negb (forallb truthy_str [email; campaign_id; employee_id]) then
       raise (HTTPException 400 "Missing required fields")
     else
       match email, campaign_id, employee_id with
       | Some email, Some campaign_id, Some employee_id =>
         ids ← try_except
                 (campaign_id ← int campaign_id;
                  employee_id ← int employee_id;
                  mret (campaign_id, employee_id))
                 (λ e, match e with
                       | ValueError =>
                         raise (HTTPException 400 "Invalid ID format")
                       | _ => raise e
                       end);
         let '(campaign_id, employee_id) := ids in
         let event :=
           Event.new email campaign_id employee_id SUBMITTED
             (client_host request) in
         db_add event;;
         db_commit;;
         db_refresh;;
         mret (TemplateResponse "training.html"
                 [("request", VRequest request);
                  ("campaign_id", VInt campaign_id);
                  ("email", VStr email)])
       | _, _, _ =>
         (* not reached: a field that is [None] is false above *)
         raise (HTTPException 400 "Missing required fields")
       end)
    (λ e, match e with
          | HTTPException _ _ => db_rollback;; raise e
          | _ => db_rollback;; raise (HTTPException 500 (str e))
          end).

Definition track_reported (request : Request) (email : string) (campaign_id : Z)
  : handler Response :=
  try_except
    (employee ← gets (λ d,
       first (filter (λ e, Employee.email e = email) (employees d)));
     match employee with
     | None => raise (HTTPException 404 "Employee not found")
     | Some employee =>
       let event :=
         Event.new email campaign_id (Employee.id employee) REPORTED
           (client_host request) in
       db_add event;;
       db_commit;;
       db_refresh;;
       mret (TemplateResponse "reported.html" [("request", VRequest request)])
     end)
    (λ e, db_rollback;; raise (HTTPException 500 (str e))).

(** The second function that the source names [track_reported], routed
    at [/track_downloaded]. *)
Definition track_downloaded (request : Request) (email : string) (campaign_id : Z)
  : handler Response :=
  try_except
    (employee ← gets (λ d,
       first (filter (λ e, Employee.email e = email) (employees d)));
     match employee with
     | None => raise (HTTPException 404 "Employee not found")
     | Some employee =>
       let event :=
         Event.new email campaign_id (Employee.id employee)
           DOWNLOADED_ATTACHMENT (client_host request) in
       db_add event;;
       db_commit;;
       db_refresh;;
       mret (JSONResponse [("status", "success")])
     end)
    (λ e, db_rollback;; raise (HTTPException 500 (str e))).

End Handlers.

(** [db.query(models.Event, models.Campaign.name.label("campaign_name"))
    .join(models.Campaign)]: the inner join of the events with the
    campaigns on the foreign key [Event.campaign_id]. *)
Definition join (evs : list Event.t) (cs : list Campaign.t)
  : list (Event.t * string) :=
  e ← evs;
  c ← filter (λ c, Campaign.id c = Event.campaign_id e) cs;
  [(e, Campaign.name c)].

Definition to_response (event : Event.t * string) : EventResponse.t :=
  EventResponse.mk
    (Event.id event.1)
    (Event.email event.1)
    (Event.ip event.1)
    (EventType_value (Event.event_type event.1))
    (Event.campaign_id event.1)
    (Event.employee_id event.1)
    event.2
    (Event.timestamp event.1).

Definition get_events (campaign_id employee_id : option Z)
  : handler (list EventResponse.t) :=
  let query := λ d, join (events d) (campaigns d) in
  let query :=
    if truthy_int campaign_id then
      λ d, filter (λ r, Some (Event.campaign_id r.1) = campaign_id) (query d)
    else query in
  let query :=
    if truthy_int employee_id then
      λ d, filter (λ r, Some (Event.employee_id r.1) = employee_id) (query d)
    else query in
  events ← gets query;
  mret (to_response <$> events).

(** ** A runtime to evaluate the handlers with

    [int] on ASCII decimal literals as CPython reads them (blanks around
    the literal, an optional sign, single underscores between digits) and
    Starlette's [HTTPException.__str__].  The theorems below hold for
    every runtime; this one evaluates them at concrete requests. *)

Definition py_isspace (c : ascii) : bool :=
  let n := Z.of_N (N_of_ascii c) in
  ((9 <=? n) && (n <=? 13)) || ((28 <=? n) && (n <=? 32)).

Fixpoint lstrip (s : string) : string :=
  match s with
  | String c rest => if py_isspace c then lstrip rest else s
  | EmptyString => s
  end.

Definition strip (s : string) : string :=
  String.rev (lstrip (String.rev (lstrip s))).

Definition digit_value (c : ascii) : option Z :=
  let n := Z.of_N (N_of_ascii c) in
  if (48 <=? n) && (n <=? 57) then Some (n - 48) else None.

Fixpoint digits (s : string) (acc : Z) (after_digit : bool) : option Z :=
  match s with
  | EmptyString => if after_digit then Some acc else None
  | String c rest =>
    match digit_value c with
    | Some v => digits rest (10 * acc + v) true
    | None =>
      if Ascii.eqb c "_"%char && after_digit then digits rest acc false
      else None
    end
  end.

Definition py_int (s : string) : option Z :=
  match strip s with
  | String "+"%char rest => digits rest 0 false
  | String "-"%char rest => Z.opp <$> digits rest 0 false
  | literal => digits literal 0 false
  end.

Definition py_str (e : Exception) : string :=
  match e with
  | HTTPException status_code detail => pretty status_code +:+ ": " +:+ detail
  | ValueError => "invalid literal for int() with base 10"
  | BinasciiError => "Incorrect padding"
  end.

Definition cpython : Runtime :=
  {| int_of_str := py_int; str_of_exception := py_str |}.

(** A store to evaluate on: the scenario of the specification. *)
Definition scenario : Database :=
  {| campaigns := [Campaign.mk 1 "Q1 Phish"];
     employees := [Employee.mk 7 "a@x.com"];
     events := [];
     now := 1700000000 |}.

Definition browser (fields : list (string * string)) : Request :=
  {| client_host := "203.0.113.9"; form := list_to_map fields |}.


(** A store with one event of campaign 1 and one event, written by
    [track_submitted], of a campaign 99 that does not exist. *)
Definition ledger : Database :=
  (serve (track_submitted cpython
            (browser [("employee_email", "a@x.com"); ("campaign_id", "99");
                      ("employee_id", "7")]))
     (serve (track_open cpython (browser []) "a@x.com" 1) scenario).2).2.

Definition ledger_view : EventResponse.t :=
  EventResponse.mk 1 "a@x.com" "203.0.113.9" "OPEN" 1 7 "Q1 Phish" 1700000000.

(** ** Vocabulary of the statements *)

(** The row that a commit writes for one pending object. *)
Definition row_of (d : Database) (e : Event.transient) : Event.t :=
  Event.mk (next_id (events d)) (Event.new_email e) (Event.new_ip e)
    (Event.new_event_type e) (Event.new_campaign_id e)
    (Event.new_employee_id e) (now d).

(** The store after the same request has been served [n] times in a row. *)
Fixpoint replay {A} (h : handler A) (n : nat) (d : Database) : Database :=
  match n with
  | O => d
  | S n => replay h n (serve h d).2
  end.

(** The rows that [query.all()] yields. *)
Definition selected (campaign_id employee_id : option Z) (d : Database)
    (r : Event.t * string) : Prop :=
  r ∈ join (events d) (campaigns d)
  ∧ (truthy_int campaign_id = true → Some (Event.campaign_id r.1) = campaign_id)
  ∧ (truthy_int employee_id = true → Some (Event.employee_id r.1) = employee_id).

(** No row of the table answers the lookup. *)
Definition no_employee (email : string) (d : Database) : Prop :=
  ∀ e, e ∈ employees d → Employee.email e ≠ email.

Definition no_campaign (campaign_id : Z) (d : Database) : Prop :=
  ∀ c, c ∈ campaigns d → Campaign.id c ≠ campaign_id.

(** A field of the form that the guard of [track_submitted] takes as
    missing: absent, or present with the empty string. *)
Definition blank (v : option string) : Prop := v = None ∨ v = Some ""%string.


(** Every event has a campaign row. *)
Definition linked (d : Database) : Prop :=
  ∀ e, e ∈ events d → ∃ c, c ∈ campaigns d ∧ Campaign.id c = Event.campaign_id e.

(** Every event carries the id and the email of one employee row. *)
Definition attributed (d : Database) : Prop :=
  ∀ e, e ∈ events d →
       ∃ m, m ∈ employees d ∧ Employee.id m = Event.employee_id e
            ∧ Employee.email m = Event.email e.

(** * Properties *)

(** ** Queries *)

Section Queries.
Context {A : Type} (P : A → Prop) `{!∀ x, Decision (P x)}.

Lemma first_filter_Some (rows : list A) :
  (∃ x, x ∈ rows ∧ P x) →
  ∃ y, first (filter P rows) = Some y ∧ y ∈ rows ∧ P y.
Proof.
  intros (x & Hx & HP).
  assert (x ∈ filter P rows) as Hin by (apply list_elem_of_filter; auto).
  unfold first. destruct (filter P rows) as [|y l] eqn:E.
  - inversion Hin.
  - exists y. split; [reflexivity|].
    assert (y ∈ filter P rows) as Hy by (rewrite E; left).
    apply list_elem_of_filter in Hy. tauto.
Qed.

Lemma first_filter_None (rows : list A) :
  (∀ x, x ∈ rows → ¬ P x) → first (filter P rows) = None.
Proof.
  intros Hno. unfold first.
  destruct (filter P rows) as [|y l] eqn:E; [reflexivity|].
  assert (y ∈ filter P rows) as Hy by (rewrite E; left).
  apply list_elem_of_filter in Hy. destruct Hy as [HP Hy].
  destruct (Hno y Hy HP).
Qed.
End Queries.

(** ** The pixel *)

Lemma a2b_base64_pixel :
  a2b_base64 ONE_PIXEL_GIF_BASE64 0 0 0 [] = Some ONE_PIXEL_GIF.
Proof. vm_compute. reflexivity. Qed.

Lemma b64decode_pixel : b64decode ONE_PIXEL_GIF_BASE64 = mret ONE_PIXEL_GIF.
Proof. unfold b64decode. rewrite a2b_base64_pixel. reflexivity. Qed.

Lemma ONE_PIXEL_GIF_length : length ONE_PIXEL_GIF = 43%nat.
Proof. reflexivity. Qed.

Lemma ONE_PIXEL_GIF_octets : Forall (λ b, 0 ≤ b < 256) ONE_PIXEL_GIF.
Proof. unfold ONE_PIXEL_GIF. repeat constructor; lia. Qed.

(** ** What each handler does, as an equation on the store *)

Ltac run_handler :=
  unfold serve, try_except, gets, raise, db_add, db_commit, db_rollback,
    db_refresh, mbind, handler_bind, mret, handler_ret; cbn.

Ltac by_lookup tbl :=
  destruct (first (filter _ tbl)); cbn; try reflexivity.

Section Equations.
Context (rt : Runtime).

Lemma serve_track_open request email campaign_id d :
  serve (track_open rt request email campaign_id) d =
  match first (filter (λ c, Campaign.id c = campaign_id) (campaigns d)) with
  | None => (inl (HTTPException 404 "Campaign not found"), d)
  | Some _ =>
    match first (filter (λ e, Employee.email e = email) (employees d)) with
    | None => (inl (HTTPException 404 "Employee not found"), d)
    | Some employee =>
      (inr (RawResponse ONE_PIXEL_GIF "image/gif"),
       set_events d (events d ++ [row_of d
         (Event.new email campaign_id (Employee.id employee) OPEN
            (client_host request))]))
    end
  end.
Proof.
  unfold track_open. rewrite b64decode_pixel. run_handler.
  by_lookup (campaigns d). by_lookup (employees d).
Qed.

Lemma serve_track_click request email campaign_id d :
  serve (track_click rt request email campaign_id) d =
  match first (filter (λ c, Campaign.id c = campaign_id) (campaigns d)) with
  | None =>
    (inl (HTTPException 500 (str rt (HTTPException 404 "Campaign not found"))), d)
  | Some _ =>
    match first (filter (λ e, Employee.email e = email) (employees d)) with
    | None =>
      (inl (HTTPException 500 (str rt (HTTPException 404 "Employee not found"))), d)
    | Some employee =>
      (inr (TemplateResponse "submission.html"
              [("request", VRequest request);
               ("campaign_id", VInt campaign_id);
               ("employee_email", VStr email);
               ("employee_id", VInt (Employee.id employee))]),
       set_events d (events d ++ [row_of d
         (Event.new email campaign_id (Employee.id employee) CLICK
            (client_host request))]))
    end
  end.
Proof.
  unfold track_click. run_handler.
  by_lookup (campaigns d). by_lookup (employees d).
Qed.

Lemma serve_track_reported request email campaign_id d :
  serve (track_reported rt request email campaign_id) d =
  match first (filter (λ e, Employee.email e = email) (employees d)) with
  | None =>
    (inl (HTTPException 500 (str rt (HTTPException 404 "Employee not found"))), d)
  | Some employee =>
    (inr (TemplateResponse "reported.html" [("request", VRequest request)]),
     set_events d (events d ++ [row_of d
       (Event.new email campaign_id (Employee.id employee) REPORTED
          (client_host request))]))
  end.
Proof.
  unfold track_reported. run_handler.
  by_lookup (employees d).
Qed.

Lemma serve_track_downloaded request email campaign_id d :
  serve (track_downloaded rt request email campaign_id) d =
  match first (filter (λ e, Employee.email e = email) (employees d)) with
  | None =>
    (inl (HTTPException 500 (str rt (HTTPException 404 "Employee not found"))), d)
  | Some employee =>
    (inr (JSONResponse [("status", "success")]),
     set_events d (events d ++ [row_of d
       (Event.new email campaign_id (Employee.id employee)
          DOWNLOADED_ATTACHMENT (client_host request))]))
  end.
Proof.
  unfold track_downloaded. run_handler.
  by_lookup (employees d).
Qed.

End Equations.

Section Submitted.
Context (rt : Runtime).

Lemma serve_track_submitted request d :
  serve (track_submitted rt request) d =
  match form request !! "employee_email", form request !! "campaign_id",
        form request !! "employee_id" with
  | Some email, Some campaign_id, Some employee_id =>
    if forallb truthy_str [Some email; Some campaign_id; Some employee_id] then
      match int_of_str rt campaign_id, int_of_str rt employee_id with
      | Some c, Some e =>
        (inr (TemplateResponse "training.html"
                [("request", VRequest request);
                 ("campaign_id", VInt c);
                 ("email", VStr email)]),
         set_events d (events d ++ [row_of d
           (Event.new email c e SUBMITTED (client_host request))]))
      | _, _ => (inl (HTTPException 400 "Invalid ID format"), d)
      end
    else (inl (HTTPException 400 "Missing required fields"), d)
  | _, _, _ => (inl (HTTPException 400 "Missing required fields"), d)
  end.
Proof.
  unfold track_submitted, int.
  destruct (form request !! "employee_email") as [email|];
    destruct (form request !! "campaign_id") as [cs|];
    destruct (form request !! "employee_id") as [es|];
    cbn [forallb truthy_str andb negb];
    try (repeat case_match; reflexivity).
  destruct (String.eqb email ""); [reflexivity|].
  destruct (String.eqb cs ""); [reflexivity|].
  destruct (String.eqb es ""); [reflexivity|].
  cbn [forallb truthy_str andb negb].
  destruct (int_of_str rt cs); [|reflexivity].
  destruct (int_of_str rt es); reflexivity.
Qed.

(** Every way in which the form can be malformed ends in status 400
    with the store as it was. *)
Lemma track_submitted_rejects request d :
  form request !! "employee_email" = None
  ∨ form request !! "campaign_id" = None
  ∨ form request !! "employee_id" = None
  ∨ (∃ s, form request !! "campaign_id" = Some s ∧ int_of_str rt s = None)
  ∨ (∃ s, form request !! "employee_id" = Some s ∧ int_of_str rt s = None) →
  ∃ detail,
    serve (track_submitted rt request) d = (inl (HTTPException 400 detail), d).
Proof.
  intros H. rewrite serve_track_submitted.
  destruct H as [-> | [H | [H | [(s & H & Hs) | (s & H & Hs)]]]].
  - eauto.
  - rewrite H. destruct (form request !! "employee_email"); eauto.
  - rewrite H.
    destruct (form request !! "employee_email"),
      (form request !! "campaign_id"); eauto.
  - rewrite H, Hs.
    destruct (form request !! "employee_email"),
      (form request !! "employee_id"); try case_match; eauto.
  - rewrite H, Hs.
    destruct (form request !! "employee_email"),
      (form request !! "campaign_id"); repeat case_match; eauto.
Qed.
End Submitted.

Lemma replay_fixed {A} (h : handler A) (d : Database) :
  (serve h d).2 = d → ∀ n, replay h n d = d.
Proof. intros H n. induction n as [|n IH]; simpl; [reflexivity|]. rewrite H. exact IH. Qed.

(** ** The listing *)

Lemma elem_of_join (evs : list Event.t) (cs : list Campaign.t) (r : Event.t * string) :
  r ∈ join evs cs ↔
  r.1 ∈ evs ∧ ∃ c, c ∈ cs ∧ Campaign.id c = Event.campaign_id r.1
                   ∧ r.2 = Campaign.name c.
Proof.
  unfold join. rewrite list_elem_of_bind. split.
  - intros (e & Hr & He). apply list_elem_of_bind in Hr.
    destruct Hr as (c & Hr & Hc). apply list_elem_of_singleton in Hr.
    apply list_elem_of_filter in Hc. destruct Hc as [Hid Hc].
    subst r. simpl. eauto.
  - intros (He & c & Hc & Hid & Hn). exists r.1. split; [|exact He].
    apply list_elem_of_bind. exists c. split.
    + apply list_elem_of_singleton. destruct r; simpl in *; congruence.
    + apply list_elem_of_filter. auto.
Qed.

Lemma serve_get_events campaign_id employee_id d :
  ∃ rows,
    serve (get_events campaign_id employee_id) d = (inr (to_response <$> rows), d)
    ∧ ∀ r, r ∈ rows ↔ selected campaign_id employee_id d r.
Proof.
  unfold get_events, selected. run_handler.
  destruct (truthy_int campaign_id), (truthy_int employee_id);
    eexists; (split; [reflexivity|]); intros r;
    rewrite ?list_elem_of_filter; intuition congruence.
Qed.

Lemma truthy_int_Some (n : Z) : truthy_int (Some n) = true ↔ n ≠ 0.
Proof.
  unfold truthy_int. destruct (Z.eqb_spec n 0); simpl; split; intros; congruence.
Qed.

(** * The claims *)

(** ** C1: [track_open] on an existing campaign and employee *)

(** C1, as the specification words it, fails: on the scenario of the
    specification the body served by [track_open] is the decoded pixel
    string, and it has 43 bytes, not 42. *)
Lemma track_open_pixel_not_42_bytes :
  ∃ content d',
    serve (track_open cpython (browser []) "a@x.com" 1) scenario
      = (inr (RawResponse content "image/gif"), d')
    ∧ a2b_base64 ONE_PIXEL_GIF_BASE64 0 0 0 [] = Some content
    ∧ length content = 43%nat
    ∧ length content ≠ 42%nat.
Proof.
  exists ONE_PIXEL_GIF. eexists. split; [vm_compute; reflexivity|].
  split; [exact a2b_base64_pixel|]. split; [reflexivity|]. simpl. lia.
Qed.

(** C1, with the length that the decoded string has: when a campaign with the given id and an employee with
    the given email exist, [track_open] appends exactly one event of kind
    OPEN, carrying the supplied email, the campaign id, the id of the
    employee found by email and the client's address, and answers with
    the bytes that base64-decoding the fixed pixel string gives, the same
    43 bytes on every call. *)
Theorem track_open_records_open rt request email campaign_id d :
  (∃ c, c ∈ campaigns d ∧ Campaign.id c = campaign_id) →
  (∃ e, e ∈ employees d ∧ Employee.email e = email) →
  ∃ employee,
    first (filter (λ e, Employee.email e = email) (employees d)) = Some employee
    ∧ employee ∈ employees d
    ∧ Employee.email employee = email
    ∧ serve (track_open rt request email campaign_id) d
      = (inr (RawResponse ONE_PIXEL_GIF "image/gif"),
         set_events d
           (events d ++
            [Event.mk (next_id (events d)) email (client_host request) OPEN
               campaign_id (Employee.id employee) (now d)]))
    ∧ a2b_base64 ONE_PIXEL_GIF_BASE64 0 0 0 [] = Some ONE_PIXEL_GIF
    ∧ length ONE_PIXEL_GIF = 43%nat.
Proof.
  intros Hc He.
  apply (first_filter_Some (λ c, Campaign.id c = campaign_id)) in Hc.
  apply (first_filter_Some (λ e, Employee.email e = email)) in He.
  destruct Hc as (c & Hc & _). destruct He as (employee & He & Hin & Hmail).
  exists employee.
  split; [exact He|]. split; [exact Hin|]. split; [exact Hmail|].
  split; [|split; [exact a2b_base64_pixel | exact ONE_PIXEL_GIF_length]].
  rewrite serve_track_open, Hc, He. reflexivity.
Qed.

Lemma track_open_records_open_witness :
  serve (track_open cpython (browser []) "a@x.com" 1) scenario
  = (inr (RawResponse ONE_PIXEL_GIF "image/gif"),
     set_events scenario
       [Event.mk 1 "a@x.com" "203.0.113.9" OPEN 1 7 1700000000]).
Proof.
  destruct (track_open_records_open cpython (browser []) "a@x.com" 1 scenario)
    as (employee & Hfirst & _ & _ & Hserve & _).
  - exists (Campaign.mk 1 "Q1 Phish"). split; [left | reflexivity].
  - exists (Employee.mk 7 "a@x.com"). split; [left | reflexivity].
  - vm_compute in Hfirst. injection Hfirst as <-. exact Hserve.
Defined.

(** ** C2, C3: lookups that find nothing *)

Section NotFound.
Context (rt : Runtime) (request : Request) (email : string) (campaign_id : Z)
  (d : Database).

(** [track_open] hands the 404 on: its [except HTTPException] clause
    re-raises what it caught. *)
Lemma track_open_no_campaign :
  no_campaign campaign_id d →
  serve (track_open rt request email campaign_id) d
  = (inl (HTTPException 404 "Campaign not found"), d).
Proof.
  intros H. rewrite serve_track_open.
  rewrite (first_filter_None (λ c, Campaign.id c = campaign_id)); auto.
Qed.

Lemma track_open_no_employee :
  no_employee email d →
  ∃ detail,
    serve (track_open rt request email campaign_id) d
    = (inl (HTTPException 404 detail), d).
Proof.
  intros H. rewrite serve_track_open.
  rewrite (first_filter_None (λ e, Employee.email e = email)); auto.
  destruct (first _); eauto.
Qed.

(** The other three handlers have the one clause [except Exception],
    which catches the 404 they raise and raises a 500 in its place. *)
Lemma track_click_no_campaign :
  no_campaign campaign_id d →
  serve (track_click rt request email campaign_id) d
  = (inl (HTTPException 500
            (str_of_exception rt (HTTPException 404 "Campaign not found"))), d).
Proof.
  intros H. rewrite serve_track_click.
  rewrite (first_filter_None (λ c, Campaign.id c = campaign_id)); auto.
Qed.

Lemma track_click_no_employee :
  no_employee email d →
  ∃ detail,
    serve (track_click rt request email campaign_id) d
    = (inl (HTTPException 500 detail), d).
Proof.
  intros H. rewrite serve_track_click.
  rewrite (first_filter_None (λ e, Employee.email e = email)); auto.
  destruct (first _); eauto.
Qed.

Lemma track_reported_no_employee :
  no_employee email d →
  serve (track_reported rt request email campaign_id) d
  = (inl (HTTPException 500
            (str_of_exception rt (HTTPException 404 "Employee not found"))), d).
Proof.
  intros H. rewrite serve_track_reported.
  rewrite (first_filter_None (λ e, Employee.email e = email)); auto.
Qed.

Lemma track_downloaded_no_employee :
  no_employee email d →
  serve (track_downloaded rt request email campaign_id) d
  = (inl (HTTPException 500
            (str_of_exception rt (HTTPException 404 "Employee not found"))), d).
Proof.
  intros H. rewrite serve_track_downloaded.
  rewrite (first_filter_None (λ e, Employee.email e = email)); auto.
Qed.
End NotFound.

Lemma scenario_no_employee : no_employee "missing@x.com" scenario.
Proof.
  intros e He. apply list_elem_of_singleton in He. subst e. discriminate.
Qed.

Lemma scenario_no_campaign : no_campaign 2 scenario.
Proof.
  intros c Hc. apply list_elem_of_singleton in Hc. subst c. discriminate.
Qed.

(** C2: an email that matches no employee.  On the scenario of the
    specification, for the address missing@x.com, [track_open] raises
    status 404, while [track_click], [track_reported] and
    [track_downloaded] raise status 500 whose detail is the text of the
    404 they caught; none of the four writes a row. *)
Theorem unknown_employee_statuses (rt : Runtime) :
  serve (track_open rt (browser []) "missing@x.com" 1) scenario
  = (inl (HTTPException 404 "Employee not found"), scenario)
  ∧ serve (track_click rt (browser []) "missing@x.com" 1) scenario
    = (inl (HTTPException 500
              (str_of_exception rt (HTTPException 404 "Employee not found"))),
       scenario)
  ∧ serve (track_reported rt (browser []) "missing@x.com" 1) scenario
    = (inl (HTTPException 500
              (str_of_exception rt (HTTPException 404 "Employee not found"))),
       scenario)
  ∧ serve (track_downloaded rt (browser []) "missing@x.com" 1) scenario
    = (inl (HTTPException 500
              (str_of_exception rt (HTTPException 404 "Employee not found"))),
       scenario).
Proof.
  split; [rewrite serve_track_open; reflexivity|].
  split; [rewrite serve_track_click; reflexivity|].
  split.
  - apply track_reported_no_employee, scenario_no_employee.
  - apply track_downloaded_no_employee, scenario_no_employee.
Qed.

(** C3: a campaign id that matches no campaign.  On the scenario of the
    specification, for campaign id 2, [track_open] raises status 404,
    while [track_click] raises status 500 whose detail is the text of
    the 404 it caught; neither writes a row. *)
Theorem unknown_campaign_statuses (rt : Runtime) :
  serve (track_open rt (browser []) "a@x.com" 2) scenario
  = (inl (HTTPException 404 "Campaign not found"), scenario)
  ∧ serve (track_click rt (browser []) "a@x.com" 2) scenario
    = (inl (HTTPException 500
              (str_of_exception rt (HTTPException 404 "Campaign not found"))),
       scenario).
Proof.
  split.
  - apply track_open_no_campaign, scenario_no_campaign.
  - apply track_click_no_campaign, scenario_no_campaign.
Qed.

(** ** C4, C5: [track_submitted] *)

(** C4, as the specification words it, fails: a form that carries the
    three fields, with ids that parse as integers, is refused with
    status 400 and writes no row when its [employee_email] is the empty
    string. *)
Lemma track_submitted_empty_email_refused :
  let request :=
    browser [("employee_email", ""); ("campaign_id", "1"); ("employee_id", "7")] in
  form request !! "employee_email" = Some ""%string
  ∧ (∃ s, form request !! "campaign_id" = Some s ∧ int_of_str cpython s = Some 1)
  ∧ (∃ s, form request !! "employee_id" = Some s ∧ int_of_str cpython s = Some 7)
  ∧ serve (track_submitted cpython request) scenario
    = (inl (HTTPException 400 "Missing required fields"), scenario).
Proof.
  cbv zeta. split; [vm_compute; reflexivity|].
  split; [exists "1"%string; vm_compute; auto|].
  split; [exists "7"%string; vm_compute; auto|].
  vm_compute. reflexivity.
Qed.

(** C4, for fields whose values are not empty: when the form carries the three fields with values
    that are not empty and [campaign_id] and [employee_id] parse as
    integers, [track_submitted] appends exactly one event of kind
    SUBMITTED whose employee id is the integer read from the form,
    whatever campaigns and employees the store holds, and answers with
    the page training.html given the campaign id and the email. *)
Theorem track_submitted_records_submitted rt request d email cs es c e :
  form request !! "employee_email" = Some email → email ≠ ""%string →
  form request !! "campaign_id" = Some cs → cs ≠ ""%string →
  form request !! "employee_id" = Some es → es ≠ ""%string →
  int_of_str rt cs = Some c →
  int_of_str rt es = Some e →
  serve (track_submitted rt request) d
  = (inr (TemplateResponse "training.html"
            [("request", VRequest request);
             ("campaign_id", VInt c);
             ("email", VStr email)]),
     set_events d
       (events d ++
        [Event.mk (next_id (events d)) email (client_host request) SUBMITTED
           c e (now d)])).
Proof.
  intros Hemail Hne1 Hcs Hne2 Hes Hne3 Hc He.
  rewrite serve_track_submitted, Hemail, Hcs, Hes. cbn [forallb truthy_str].
  apply String.eqb_neq in Hne1, Hne2, Hne3. rewrite Hne1, Hne2, Hne3.
  cbn [negb andb]. rewrite Hc, He. reflexivity.
Qed.

(** The third scenario of the specification; no campaign 5 and no
    employee 99 exist. *)
Lemma track_submitted_records_submitted_witness :
  serve (track_submitted cpython
           (browser [("employee_email", "a@x.com"); ("campaign_id", "5");
                     ("employee_id", "99")])) scenario
  = (inr (TemplateResponse "training.html"
            [("request", VRequest
                (browser [("employee_email", "a@x.com"); ("campaign_id", "5");
                          ("employee_id", "99")]));
             ("campaign_id", VInt 5);
             ("email", VStr "a@x.com")]),
     set_events scenario
       [Event.mk 1 "a@x.com" "203.0.113.9" SUBMITTED 5 99 1700000000]).
Proof.
  apply (track_submitted_records_submitted cpython
           (browser [("employee_email", "a@x.com"); ("campaign_id", "5");
                     ("employee_id", "99")]) scenario
           "a@x.com" "5" "99" 5 99);
    solve [vm_compute; reflexivity | discriminate].
Defined.

(** C5: when one of the three fields is absent from the form, or
    [campaign_id] or [employee_id] does not parse as an integer,
    [track_submitted] raises status 400 and leaves the store as it was;
    after the same request has been served any number of times the store
    is still as it was. *)
Theorem track_submitted_bad_request rt request d :
  form request !! "employee_email" = None
  ∨ form request !! "campaign_id" = None
  ∨ form request !! "employee_id" = None
  ∨ (∃ s, form request !! "campaign_id" = Some s ∧ int_of_str rt s = None)
  ∨ (∃ s, form request !! "employee_id" = Some s ∧ int_of_str rt s = None) →
  (∃ detail,
     serve (track_submitted rt request) d = (inl (HTTPException 400 detail), d))
  ∧ events (serve (track_submitted rt request) d).2 = events d
  ∧ ∀ n, replay (track_submitted rt request) n d = d.
Proof.
  intros H. destruct (track_submitted_rejects rt request d H) as (detail & E).
  split; [eauto|]. split; [rewrite E; reflexivity|].
  apply replay_fixed. rewrite E. reflexivity.
Qed.

Lemma track_submitted_bad_request_witness :
  (∃ detail,
     serve (track_submitted cpython
              (browser [("employee_email", "a@x.com"); ("campaign_id", "one");
                        ("employee_id", "7")])) scenario
     = (inl (HTTPException 400 detail), scenario))
  ∧ replay (track_submitted cpython
              (browser [("employee_email", "a@x.com"); ("campaign_id", "one");
                        ("employee_id", "7")])) 3 scenario = scenario.
Proof.
  destruct (track_submitted_bad_request cpython
              (browser [("employee_email", "a@x.com"); ("campaign_id", "one");
                        ("employee_id", "7")]) scenario) as (H400 & _ & Hn).
  - right. right. right. left. exists "one"%string.
    split; vm_compute; reflexivity.
  - split; [exact H400 | exact (Hn 3%nat)].
Defined.

(** ** C6, C7, C9, C10: [get_events] *)

Lemma ledger_events :
  events ledger =
  [Event.mk 1 "a@x.com" "203.0.113.9" OPEN 1 7 1700000000;
   Event.mk 2 "a@x.com" "203.0.113.9" SUBMITTED 99 7 1700000000].
Proof. vm_compute. reflexivity. Qed.

(** C6, as the specification words it, fails twice on [ledger]: the
    query with [campaign_id=0] returns an event whose campaign id is 1,
    and the query without filters returns one event where two exist. *)
Lemma get_events_filter_exceptions :
  serve (get_events (Some 0) None) ledger = (inr [ledger_view], ledger)
  ∧ EventResponse.campaign_id ledger_view = 1
  ∧ serve (get_events None None) ledger = (inr [ledger_view], ledger)
  ∧ length (events ledger) = 2%nat.
Proof. repeat split; vm_compute; reflexivity. Qed.

(** C6, for ids other than 0 and events that have a campaign row:
    [get_events] returns the views of the events that have
    a campaign row, restricted to the events whose campaign id is X when
    a [campaign_id] X other than 0 is supplied, and to the events whose
    employee id is Y when an [employee_id] Y other than 0 is supplied;
    both restrictions hold together when both are supplied, and with no
    filter every event that has a campaign row is returned. *)
Theorem get_events_filters campaign_id employee_id d :
  ∃ views,
    serve (get_events campaign_id employee_id) d = (inr views, d)
    ∧ ∀ v, v ∈ views ↔
        ∃ e c,
          e ∈ events d ∧ c ∈ campaigns d
          ∧ Campaign.id c = Event.campaign_id e
          ∧ v = to_response (e, Campaign.name c)
          ∧ (∀ X, campaign_id = Some X → X ≠ 0 → Event.campaign_id e = X)
          ∧ (∀ Y, employee_id = Some Y → Y ≠ 0 → Event.employee_id e = Y).
Proof.
  destruct (serve_get_events campaign_id employee_id d) as (rows & E & Hrows).
  exists (to_response <$> rows). split; [exact E|].
  intros v. rewrite list_elem_of_fmap. split.
  - intros ([e n] & -> & Hr). apply Hrows in Hr.
    destruct Hr as (Hj & Hc & He). apply elem_of_join in Hj.
    destruct Hj as (Hin & c & Hcin & Hid & Hn). simpl in *. subst n.
    exists e, c. repeat split; try assumption.
    + intros X -> HX. apply truthy_int_Some in HX.
      specialize (Hc HX). congruence.
    + intros Y -> HY. apply truthy_int_Some in HY.
      specialize (He HY). congruence.
  - intros (e & c & Hin & Hcin & Hid & -> & Hc & He).
    exists (e, Campaign.name c). split; [reflexivity|].
    apply Hrows. split; [|split].
    + apply elem_of_join. simpl. eauto.
    + destruct campaign_id as [X|]; [|discriminate].
      intros HX. apply truthy_int_Some in HX. simpl. f_equal. auto.
    + destruct employee_id as [Y|]; [|discriminate].
      intros HY. apply truthy_int_Some in HY. simpl. f_equal. auto.
Qed.

(** C7: [get_events] answers and leaves the store as it was; every view
    it returns carries the id, email, ip, event type, campaign id,
    employee id and timestamp of an event of the store, and as
    [campaign_name] the name of a campaign row whose id is the event's
    campaign id, which is the name of every such row when campaign ids
    are unique. *)
Theorem get_events_views campaign_id employee_id d :
  ∃ views,
    serve (get_events campaign_id employee_id) d = (inr views, d)
    ∧ ∀ v, v ∈ views →
        ∃ e c,
          e ∈ events d ∧ c ∈ campaigns d
          ∧ Campaign.id c = Event.campaign_id e
          ∧ EventResponse.id v = Event.id e
          ∧ EventResponse.email v = Event.email e
          ∧ EventResponse.ip v = Event.ip e
          ∧ EventResponse.event_type v = EventType_value (Event.event_type e)
          ∧ EventResponse.campaign_id v = Event.campaign_id e
          ∧ EventResponse.employee_id v = Event.employee_id e
          ∧ EventResponse.timestamp v = Event.timestamp e
          ∧ EventResponse.campaign_name v = Campaign.name c
          ∧ (NoDup (Campaign.id <$> campaigns d) →
             ∀ c', c' ∈ campaigns d →
                   Campaign.id c' = EventResponse.campaign_id v →
                   Campaign.name c' = EventResponse.campaign_name v).
Proof.
  destruct (serve_get_events campaign_id employee_id d) as (rows & E & Hrows).
  exists (to_response <$> rows). split; [exact E|].
  intros v Hv. apply list_elem_of_fmap in Hv. destruct Hv as ([e n] & -> & Hr).
  apply Hrows in Hr. destruct Hr as (Hj & _). apply elem_of_join in Hj.
  destruct Hj as (Hin & c & Hcin & Hid & Hn). simpl in *. subst n.
  exists e, c. repeat split; try assumption.
  intros Hnodup c' Hc' Hid'.
  assert (c' = c) as ->; [|reflexivity].
  apply list_elem_of_lookup in Hc', Hcin.
  destruct Hc' as (i & Hi). destruct Hcin as (j & Hj).
  assert (i = j) as ->.
  { eapply NoDup_lookup; [exact Hnodup| |];
      rewrite list_lookup_fmap; [rewrite Hi | rewrite Hj]; simpl;
      [rewrite Hid' | rewrite Hid]; reflexivity. }
  congruence.
Qed.

(** C9: an event whose campaign id matches no campaign row is left out
    of what [get_events] returns, whatever filters are supplied: no view
    returned has that campaign id, so none is the view of that event. *)
Theorem get_events_omits_orphans campaign_id employee_id d e :
  e ∈ events d →
  (∀ c, c ∈ campaigns d → Campaign.id c ≠ Event.campaign_id e) →
  ∃ views,
    serve (get_events campaign_id employee_id) d = (inr views, d)
    ∧ (∀ v, v ∈ views → EventResponse.campaign_id v ≠ Event.campaign_id e)
    ∧ ∀ name, to_response (e, name) ∉ views.
Proof.
  intros _ Horphan.
  destruct (serve_get_events campaign_id employee_id d) as (rows & E & Hrows).
  exists (to_response <$> rows). split; [exact E|].
  assert (∀ v, v ∈ to_response <$> rows →
               EventResponse.campaign_id v ≠ Event.campaign_id e) as Hno.
  { intros v Hv. apply list_elem_of_fmap in Hv. destruct Hv as (r & -> & Hr).
    apply Hrows in Hr. destruct Hr as (Hj & _). apply elem_of_join in Hj.
    destruct Hj as (_ & c & Hc & Hid & _). simpl. rewrite <- Hid. auto. }
  split; [exact Hno|].
  intros name Hin. apply (Hno _ Hin). reflexivity.
Qed.

(** Stores in which [track_submitted], [track_reported] and
    [track_downloaded] have each written an event of campaign 99, which
    does not exist: the unfiltered listing of each is empty. *)
Lemma get_events_omits_orphans_witness :
  let submitted :=
    (serve (track_submitted cpython
              (browser [("employee_email", "a@x.com"); ("campaign_id", "99");
                        ("employee_id", "7")])) scenario).2 in
  let reported :=
    (serve (track_reported cpython (browser []) "a@x.com" 99) scenario).2 in
  let downloaded :=
    (serve (track_downloaded cpython (browser []) "a@x.com" 99) scenario).2 in
  (Event.campaign_id <$> events submitted = [99]
   ∧ ∃ views, serve (get_events None None) submitted = (inr views, submitted)
              ∧ ∀ v, v ∈ views → EventResponse.campaign_id v ≠ 99)
  ∧ (Event.campaign_id <$> events reported = [99]
     ∧ ∃ views, serve (get_events None None) reported = (inr views, reported)
                ∧ ∀ v, v ∈ views → EventResponse.campaign_id v ≠ 99)
  ∧ (Event.campaign_id <$> events downloaded = [99]
     ∧ ∃ views, serve (get_events None None) downloaded = (inr views, downloaded)
                ∧ ∀ v, v ∈ views → EventResponse.campaign_id v ≠ 99).
Proof.
  cbv zeta.
  assert (∀ d e, events d = [e] → campaigns d = campaigns scenario →
                 Event.campaign_id e = 99 →
                 ∃ views, serve (get_events None None) d = (inr views, d)
                          ∧ ∀ v, v ∈ views → EventResponse.campaign_id v ≠ 99)
    as Happly.
  { intros d e Hev Hcs Hid.
    destruct (get_events_omits_orphans None None d e) as (views & E & Hno & _).
    - rewrite Hev. left.
    - rewrite Hcs, Hid. intros c Hc. apply list_elem_of_singleton in Hc.
      subst c. discriminate.
    - exists views. rewrite <- Hid. auto. }
  repeat split; try (vm_compute; reflexivity);
    eapply Happly; vm_compute; reflexivity.
Defined.

(** C10: a [campaign_id] of 0, and likewise an [employee_id] of 0, is
    the same query as that filter not supplied; on [ledger] the query
    with [campaign_id=0] therefore returns an event of campaign 1 where
    no event has campaign id 0. *)
Theorem get_events_zero_is_absent (campaign_id employee_id : option Z) :
  get_events (Some 0) employee_id = get_events None employee_id
  ∧ get_events campaign_id (Some 0) = get_events campaign_id None
  ∧ serve (get_events (Some 0) None) ledger = (inr [ledger_view], ledger)
  ∧ filter (λ e, Event.campaign_id e = 0) (events ledger) = [].
Proof.
  split; [reflexivity|]. split; [reflexivity|].
  split; vm_compute; reflexivity.
Qed.

(** ** C8: [track_reported] and [track_downloaded] *)

(** C8: when an employee with the given email exists, [track_reported]
    appends exactly one event of kind REPORTED and [track_downloaded]
    exactly one of kind DOWNLOADED_ATTACHMENT, each carrying the supplied
    campaign id whatever campaigns the store holds; the first answers
    with the page reported.html and the second with status success. *)
Theorem track_reported_downloaded_record rt request email campaign_id d :
  (∃ e, e ∈ employees d ∧ Employee.email e = email) →
  ∃ employee,
    first (filter (λ e, Employee.email e = email) (employees d)) = Some employee
    ∧ employee ∈ employees d
    ∧ Employee.email employee = email
    ∧ serve (track_reported rt request email campaign_id) d
      = (inr (TemplateResponse "reported.html" [("request", VRequest request)]),
         set_events d
           (events d ++
            [Event.mk (next_id (events d)) email (client_host request) REPORTED
               campaign_id (Employee.id employee) (now d)]))
    ∧ serve (track_downloaded rt request email campaign_id) d
      = (inr (JSONResponse [("status", "success")]),
         set_events d
           (events d ++
            [Event.mk (next_id (events d)) email (client_host request)
               DOWNLOADED_ATTACHMENT campaign_id (Employee.id employee) (now d)])).
Proof.
  intros He.
  apply (first_filter_Some (λ e, Employee.email e = email)) in He.
  destruct He as (employee & He & Hin & Hmail).
  exists employee.
  split; [exact He|]. split; [exact Hin|]. split; [exact Hmail|].
  split.
  - rewrite serve_track_reported, He. reflexivity.
  - rewrite serve_track_downloaded, He. reflexivity.
Qed.

(** Campaign 99 does not exist in the scenario. *)
Lemma track_reported_downloaded_record_witness :
  serve (track_reported cpython (browser []) "a@x.com" 99) scenario
  = (inr (TemplateResponse "reported.html" [("request", VRequest (browser []))]),
     set_events scenario
       [Event.mk 1 "a@x.com" "203.0.113.9" REPORTED 99 7 1700000000])
  ∧ serve (track_downloaded cpython (browser []) "a@x.com" 99) scenario
    = (inr (JSONResponse [("status", "success")]),
       set_events scenario
         [Event.mk 1 "a@x.com" "203.0.113.9" DOWNLOADED_ATTACHMENT 99 7
            1700000000]).
Proof.
  destruct (track_reported_downloaded_record cpython (browser []) "a@x.com" 99
              scenario) as (employee & Hfirst & _ & _ & Hrep & Hdown).
  - exists (Employee.mk 7 "a@x.com"). split; [left | reflexivity].
  - vm_compute in Hfirst. injection Hfirst as <-. split; assumption.
Defined.

(** * Further properties of the handlers *)

(** ** [track_click] on an existing campaign and employee *)

(** X1: when a campaign with the given id and an employee with the given
    email exist, [track_click] appends exactly one event of kind CLICK
    with the supplied email and campaign id, the id of the employee found
    by email and the client's address, and answers with the page
    submission.html given the campaign id, the email and that employee
    id. *)
Theorem track_click_records_click rt request email campaign_id d :
  (∃ c, c ∈ campaigns d ∧ Campaign.id c = campaign_id) →
  (∃ e, e ∈ employees d ∧ Employee.email e = email) →
  ∃ employee,
    first (filter (λ e, Employee.email e = email) (employees d)) = Some employee
    ∧ employee ∈ employees d
    ∧ Employee.email employee = email
    ∧ serve (track_click rt request email campaign_id) d
      = (inr (TemplateResponse "submission.html"
                [("request", VRequest request);
                 ("campaign_id", VInt campaign_id);
                 ("employee_email", VStr email);
                 ("employee_id", VInt (Employee.id employee))]),
         set_events d
           (events d ++
            [Event.mk (next_id (events d)) email (client_host request) CLICK
               campaign_id (Employee.id employee) (now d)])).
Proof.
  intros Hc He.
  apply (first_filter_Some (λ c, Campaign.id c = campaign_id)) in Hc.
  apply (first_filter_Some (λ e, Employee.email e = email)) in He.
  destruct Hc as (c & Hc & _). destruct He as (employee & He & Hin & Hmail).
  exists employee.
  split; [exact He|]. split; [exact Hin|]. split; [exact Hmail|].
  rewrite serve_track_click, Hc, He. reflexivity.
Qed.

Lemma track_click_records_click_witness :
  serve (track_click cpython (browser []) "a@x.com" 1) scenario
  = (inr (TemplateResponse "submission.html"
            [("request", VRequest (browser []));
             ("campaign_id", VInt 1);
             ("employee_email", VStr "a@x.com");
             ("employee_id", VInt 7)]),
     set_events scenario
       [Event.mk 1 "a@x.com" "203.0.113.9" CLICK 1 7 1700000000]).
Proof.
  destruct (track_click_records_click cpython (browser []) "a@x.com" 1 scenario)
    as (employee & Hfirst & _ & _ & Hserve).
  - exists (Campaign.mk 1 "Q1 Phish"). split; [left | reflexivity].
  - exists (Employee.mk 7 "a@x.com"). split; [left | reflexivity].
  - vm_compute in Hfirst. injection Hfirst as <-. exact Hserve.
Defined.

(** ** Which error a failed lookup gives *)

(** X2: [track_open] looks the campaign up first.  Without a campaign
    row it raises 404 "Campaign not found" whether or not the employee
    exists; with one and without an employee row it raises 404
    "Employee not found"; the store is as it was in both cases. *)
Theorem track_open_not_found rt request email campaign_id d :
  (no_campaign campaign_id d →
   serve (track_open rt request email campaign_id) d
   = (inl (HTTPException 404 "Campaign not found"), d))
  ∧ ((∃ c, c ∈ campaigns d ∧ Campaign.id c = campaign_id) →
     no_employee email d →
     serve (track_open rt request email campaign_id) d
     = (inl (HTTPException 404 "Employee not found"), d)).
Proof.
  split.
  - apply track_open_no_campaign.
  - intros Hc He.
    apply (first_filter_Some (λ c, Campaign.id c = campaign_id)) in Hc.
    destruct Hc as (c & Hc & _).
    rewrite serve_track_open, Hc.
    rewrite (first_filter_None (λ e, Employee.email e = email)); auto.
Qed.

Lemma track_open_not_found_witness :
  serve (track_open cpython (browser []) "missing@x.com" 2) scenario
  = (inl (HTTPException 404 "Campaign not found"), scenario)
  ∧ serve (track_open cpython (browser []) "missing@x.com" 1) scenario
    = (inl (HTTPException 404 "Employee not found"), scenario).
Proof.
  split.
  - apply (track_open_not_found cpython (browser []) "missing@x.com" 2 scenario).
    exact scenario_no_campaign.
  - apply (track_open_not_found cpython (browser []) "missing@x.com" 1 scenario).
    + exists (Campaign.mk 1 "Q1 Phish"). split; [left | reflexivity].
    + exact scenario_no_employee.
Defined.



(** ** The two refusals of [track_submitted] *)

(** X4: when one of the three fields is absent from the form or is the
    empty string, [track_submitted] raises 400 "Missing required fields"
    and writes nothing, whether or not the ids would parse: the guard on
    the fields comes before the conversion. *)
Theorem track_submitted_missing_fields rt request d :
  blank (form request !! "employee_email")
  ∨ blank (form request !! "campaign_id")
  ∨ blank (form request !! "employee_id") →
  serve (track_submitted rt request) d
  = (inl (HTTPException 400 "Missing required fields"), d).
Proof.
  intros H. rewrite serve_track_submitted.
  destruct (form request !! "employee_email") as [email|]; [|reflexivity].
  destruct (form request !! "campaign_id") as [cs|]; [|reflexivity].
  destruct (form request !! "employee_id") as [es|]; [|reflexivity].
  cbn [forallb truthy_str].
  destruct H as [[H | H] | [[H | H] | [H | H]]]; try discriminate H;
    injection H as ->; cbn [String.eqb negb andb];
    repeat (destruct (String.eqb _ _); cbn [negb andb]); reflexivity.
Qed.

Lemma track_submitted_missing_fields_witness :
  serve (track_submitted cpython
           (browser [("employee_email", "a@x.com"); ("campaign_id", "");
                     ("employee_id", "seven")])) scenario
  = (inl (HTTPException 400 "Missing required fields"), scenario).
Proof.
  apply (track_submitted_missing_fields cpython
           (browser [("employee_email", "a@x.com"); ("campaign_id", "");
                     ("employee_id", "seven")]) scenario).
  right. left. right. vm_compute. reflexivity.
Defined.

(** X5: when the three fields are present and not empty and
    [campaign_id] or [employee_id] does not parse as an integer,
    [track_submitted] raises 400 "Invalid ID format" and writes
    nothing. *)
Theorem track_submitted_invalid_id rt request d email cs es :
  form request !! "employee_email" = Some email → email ≠ ""%string →
  form request !! "campaign_id" = Some cs → cs ≠ ""%string →
  form request !! "employee_id" = Some es → es ≠ ""%string →
  int_of_str rt cs = None ∨ int_of_str rt es = None →
  serve (track_submitted rt request) d
  = (inl (HTTPException 400 "Invalid ID format"), d).
Proof.
  intros Hemail Hne1 Hcs Hne2 Hes Hne3 Hbad.
  rewrite serve_track_submitted, Hemail, Hcs, Hes. cbn [forallb truthy_str].
  apply String.eqb_neq in Hne1, Hne2, Hne3. rewrite Hne1, Hne2, Hne3.
  cbn [negb andb].
  destruct Hbad as [-> | ->]; [reflexivity|].
  destruct (int_of_str rt cs); reflexivity.
Qed.

Lemma track_submitted_invalid_id_witness :
  serve (track_submitted cpython
           (browser [("employee_email", "a@x.com"); ("campaign_id", "1");
                     ("employee_id", "seven")])) scenario
  = (inl (HTTPException 400 "Invalid ID format"), scenario).
Proof.
  apply (track_submitted_invalid_id cpython
           (browser [("employee_email", "a@x.com"); ("campaign_id", "1");
                     ("employee_id", "seven")]) scenario "a@x.com" "1" "seven");
    solve [vm_compute; reflexivity | discriminate | right; vm_compute; reflexivity].
Defined.

(** ** All or nothing *)


(** ** Requests served again *)

Lemma first_filter_elem {A} (P : A → Prop) `{!∀ x, Decision (P x)}
    (rows : list A) (y : A) :
  first (filter P rows) = Some y → y ∈ rows ∧ P y.
Proof.
  unfold first. intros Hy. apply head_Some_elem_of in Hy.
  apply list_elem_of_filter in Hy. tauto.
Qed.

Lemma replay_succeeding {A} (h : handler A) (Q : Event.t → Prop)
    (cs : list Campaign.t) (es : list Employee.t) :
  (∀ d, campaigns d = cs → employees d = es →
        ∃ r row, serve h d = (inr r, set_events d (events d ++ [row])) ∧ Q row) →
  ∀ n d, campaigns d = cs → employees d = es →
    ∃ suffix, events (replay h n d) = events d ++ suffix
              ∧ length suffix = n ∧ Forall Q suffix.
Proof.
  intros Hh n. induction n as [|n IH]; intros d Hcs Hes; simpl.
  - exists []. rewrite app_nil_r. auto.
  - destruct (Hh d Hcs Hes) as (r & row & E & HQ). rewrite E. simpl.
    destruct (IH (set_events d (events d ++ [row])) Hcs Hes)
      as (suffix & Hev & Hlen & Hall).
    exists (row :: suffix). rewrite Hev. simpl. rewrite <- app_assoc.
    split; [reflexivity|]. split; [congruence|]. constructor; assumption.
Qed.

(** X7: nothing is deduplicated.  When the campaign and the employee
    exist, serving the same [track_open] request [n] times in a row
    keeps the events there were and appends [n] events of kind OPEN with
    that email and campaign id; the same holds of [track_click] with
    kind CLICK. *)
Theorem repeated_requests_are_all_recorded rt request email campaign_id d n :
  (∃ c, c ∈ campaigns d ∧ Campaign.id c = campaign_id) →
  (∃ e, e ∈ employees d ∧ Employee.email e = email) →
  (∃ suffix,
     events (replay (track_open rt request email campaign_id) n d)
     = events d ++ suffix
     ∧ length suffix = n
     ∧ Forall (λ e, Event.event_type e = OPEN ∧ Event.email e = email
                    ∧ Event.campaign_id e = campaign_id) suffix)
  ∧ (∃ suffix,
       events (replay (track_click rt request email campaign_id) n d)
       = events d ++ suffix
       ∧ length suffix = n
       ∧ Forall (λ e, Event.event_type e = CLICK ∧ Event.email e = email
                      ∧ Event.campaign_id e = campaign_id) suffix).
Proof.
  intros Hc He.
  apply (first_filter_Some (λ c, Campaign.id c = campaign_id)) in Hc.
  apply (first_filter_Some (λ e, Employee.email e = email)) in He.
  destruct Hc as (c & Hc & _). destruct He as (employee & He & _).
  split.
  - apply (replay_succeeding _ _ (campaigns d) (employees d)); [|reflexivity..].
    intros d' Hcs Hes. rewrite serve_track_open, Hcs, Hes, Hc, He.
    eexists _, _. split; [reflexivity|]. simpl. auto.
  - apply (replay_succeeding _ _ (campaigns d) (employees d)); [|reflexivity..].
    intros d' Hcs Hes. rewrite serve_track_click, Hcs, Hes, Hc, He.
    eexists _, _. split; [reflexivity|]. simpl. auto.
Qed.

Lemma repeated_requests_are_all_recorded_witness :
  (∃ suffix,
     events (replay (track_open cpython (browser []) "a@x.com" 1) 3 scenario)
     = suffix ∧ length suffix = 3%nat)
  ∧ Event.event_type <$>
      events (replay (track_click cpython (browser []) "a@x.com" 1) 2 scenario)
    = [CLICK; CLICK].
Proof.
  destruct (repeated_requests_are_all_recorded cpython (browser []) "a@x.com" 1
              scenario 3) as ((suffix & Hev & Hlen & _) & _).
  - exists (Campaign.mk 1 "Q1 Phish"). split; [left | reflexivity].
  - exists (Employee.mk 7 "a@x.com"). split; [left | reflexivity].
  - split; [exists suffix; split; [exact Hev | exact Hlen]|].
    vm_compute. reflexivity.
Defined.

(** ** Recording, then listing *)

Lemma listed_after_append (d : Database) (row : Event.t) (c : Campaign.t)
    (fc fe : option Z) :
  c ∈ campaigns d → Campaign.id c = Event.campaign_id row →
  fc = None ∨ fc = Some (Event.campaign_id row) →
  fe = None ∨ fe = Some (Event.employee_id row) →
  ∃ views,
    serve (get_events fc fe) (set_events d (events d ++ [row]))
    = (inr views, set_events d (events d ++ [row]))
    ∧ to_response (row, Campaign.name c) ∈ views.
Proof.
  intros Hc Hid Hfc Hfe.
  destruct (serve_get_events fc fe (set_events d (events d ++ [row])))
    as (rows & E & Hrows).
  exists (to_response <$> rows). split; [exact E|].
  apply list_elem_of_fmap_2, Hrows. split; [|split].
  - apply elem_of_join. simpl. split.
    + apply elem_of_app. right. left.
    + exists c. auto.
  - destruct Hfc as [-> | ->]; [discriminate | reflexivity].
  - destruct Hfe as [-> | ->]; [discriminate | reflexivity].
Qed.

(** X8: an event recorded by [track_open] or [track_click] is listed.
    When the campaign and the employee exist, [get_events] on the store
    that the handler leaves, without filters or filtered on the
    request's campaign id or on the employee's id, returns the view of
    the new event with the name of a campaign row of that id. *)
Theorem recorded_open_and_click_are_listed rt request email campaign_id d :
  (∃ c, c ∈ campaigns d ∧ Campaign.id c = campaign_id) →
  (∃ e, e ∈ employees d ∧ Employee.email e = email) →
  ∃ employee c,
    first (filter (λ e, Employee.email e = email) (employees d)) = Some employee
    ∧ c ∈ campaigns d ∧ Campaign.id c = campaign_id
    ∧ ∀ fc fe,
        fc = None ∨ fc = Some campaign_id →
        fe = None ∨ fe = Some (Employee.id employee) →
        (∃ views,
           serve (get_events fc fe)
             (serve (track_open rt request email campaign_id) d).2
           = (inr views, (serve (track_open rt request email campaign_id) d).2)
           ∧ EventResponse.mk (next_id (events d)) email (client_host request)
               (EventType_value OPEN) campaign_id (Employee.id employee)
               (Campaign.name c) (now d) ∈ views)
        ∧ (∃ views,
             serve (get_events fc fe)
               (serve (track_click rt request email campaign_id) d).2
             = (inr views, (serve (track_click rt request email campaign_id) d).2)
             ∧ EventResponse.mk (next_id (events d)) email (client_host request)
                 (EventType_value CLICK) campaign_id (Employee.id employee)
                 (Campaign.name c) (now d) ∈ views).
Proof.
  intros Hc He.
  apply (first_filter_Some (λ c, Campaign.id c = campaign_id)) in Hc.
  apply (first_filter_Some (λ e, Employee.email e = email)) in He.
  destruct Hc as (c & Hc & Hcin & Hcid). destruct He as (employee & He & _).
  exists employee, c. split; [exact He|]. split; [exact Hcin|].
  split; [exact Hcid|]. intros fc fe Hfc Hfe.
  rewrite serve_track_open, serve_track_click, Hc, He. simpl. split.
  - apply (listed_after_append d
             (Event.mk (next_id (events d)) email (client_host request) OPEN
                campaign_id (Employee.id employee) (now d)) c); assumption.
  - apply (listed_after_append d
             (Event.mk (next_id (events d)) email (client_host request) CLICK
                campaign_id (Employee.id employee) (now d)) c); assumption.
Qed.

Lemma recorded_open_and_click_are_listed_witness :
  ∃ views,
    serve (get_events (Some 1) (Some 7))
      (serve (track_open cpython (browser []) "a@x.com" 1) scenario).2
    = (inr views, (serve (track_open cpython (browser []) "a@x.com" 1) scenario).2)
    ∧ EventResponse.mk 1 "a@x.com" "203.0.113.9" "OPEN" 1 7 "Q1 Phish" 1700000000
      ∈ views.
Proof.
  destruct (recorded_open_and_click_are_listed cpython (browser []) "a@x.com" 1
              scenario) as (employee & c & Hfirst & Hcin & _ & Hlisted).
  - exists (Campaign.mk 1 "Q1 Phish"). split; [left | reflexivity].
  - exists (Employee.mk 7 "a@x.com"). split; [left | reflexivity].
  - vm_compute in Hfirst. injection Hfirst as <-.
    apply list_elem_of_singleton in Hcin. subst c.
    destruct (Hlisted (Some 1) (Some 7)) as ((views & E & Hin) & _);
      [right; reflexivity | right; reflexivity |].
    exists views. split; [exact E | exact Hin].
Defined.

(** ** Filters as restrictions of the unfiltered listing *)


Lemma serve_get_events_eq (fc fe : option Z) (d : Database) :
  serve (get_events fc fe) d =
  (inr (to_response <$>
          (if truthy_int fe
           then filter (λ r, Some (Event.employee_id r.1) = fe)
           else λ rows, rows)
            ((if truthy_int fc
              then filter (λ r, Some (Event.campaign_id r.1) = fc)
              else λ rows, rows)
               (join (events d) (campaigns d)))), d).
Proof.
  unfold get_events.
  destruct (truthy_int fc), (truthy_int fe); reflexivity.
Qed.



(** ** How many views an event has *)

Lemma length_bind_singleton {A B} (g : A → B) (l : list A) :
  length (l ≫= λ x, [g x]) = length l.
Proof.
  induction l as [|x l IH]; [reflexivity|].
  rewrite bind_cons. simpl. rewrite IH. reflexivity.
Qed.

Lemma unique_campaign_row (cs : list Campaign.t) (x : Z) :
  NoDup (Campaign.id <$> cs) →
  (length (filter (λ c, Campaign.id c = x) cs) ≤ 1)%nat.
Proof.
  induction cs as [|c cs IH]; intros Hnd; [simpl; lia|].
  rewrite fmap_cons in Hnd. apply NoDup_cons in Hnd. destruct Hnd as [Hc Hnd].
  rewrite filter_cons. destruct (decide (Campaign.id c = x)) as [Hx | Hx].
  - assert (filter (λ c, Campaign.id c = x) cs = []) as ->; [|simpl; lia].
    destruct (filter _ cs) as [|c' l] eqn:E; [reflexivity|].
    assert (c' ∈ filter (λ c, Campaign.id c = x) cs) as Hc' by (rewrite E; left).
    apply list_elem_of_filter in Hc'. destruct Hc' as [Hid Hin].
    destruct Hc. rewrite Hx, <- Hid. apply list_elem_of_fmap_2. exact Hin.
  - apply IH, Hnd.
Qed.

Lemma length_join (evs : list Event.t) (cs : list Campaign.t) :
  NoDup (Campaign.id <$> cs) →
  (length (join evs cs) ≤ length evs)%nat
  ∧ ((∀ e, e ∈ evs → ∃ c, c ∈ cs ∧ Campaign.id c = Event.campaign_id e) →
     length (join evs cs) = length evs).
Proof.
  intros Hnd. unfold join. induction evs as [|e evs [IHle IHeq]].
  - split; reflexivity.
  - rewrite bind_cons, length_app, length_bind_singleton.
    pose proof (unique_campaign_row cs (Event.campaign_id e) Hnd) as H1.
    split; [simpl; lia|].
    intros Hlinked. rewrite IHeq.
    + destruct (Hlinked e) as (c & Hc & Hid); [left|].
      assert (c ∈ filter (λ c, Campaign.id c = Event.campaign_id e) cs) as Hin
        by (apply list_elem_of_filter; auto).
      destruct (filter _ cs) as [|c' l]; [inversion Hin|].
      simpl in *. lia.
    + intros e' He'. apply Hlinked. right. exact He'.
Qed.

(** X10: when campaign ids are unique, [get_events] returns at most one
    view per event whatever the filters, and the unfiltered listing has
    exactly as many views as there are events when every event has a
    campaign row. *)
Theorem get_events_one_view_per_event (fc fe : option Z) (d : Database) :
  NoDup (Campaign.id <$> campaigns d) →
  ∃ views all,
    serve (get_events fc fe) d = (inr views, d)
    ∧ serve (get_events None None) d = (inr all, d)
    ∧ (length views ≤ length (events d))%nat
    ∧ (linked d → length all = length (events d)).
Proof.
  intros Hnd.
  destruct (length_join (events d) (campaigns d) Hnd) as [Hle Heq].
  eexists _, _. rewrite !serve_get_events_eq.
  split; [reflexivity|]. split; [reflexivity|].
  rewrite !length_fmap. split.
  - destruct (truthy_int fc), (truthy_int fe);
      repeat (etrans; [apply length_filter|]); exact Hle.
  - exact Heq.
Qed.

Lemma get_events_one_view_per_event_witness :
  ∃ views,
    serve (get_events None None) (set_events ledger (take 1 (events ledger)))
    = (inr views, set_events ledger (take 1 (events ledger)))
    ∧ length views = 1%nat.
Proof.
  destruct (get_events_one_view_per_event None None
              (set_events ledger (take 1 (events ledger))))
    as (views & all & E & Eall & _ & Hlen).
  - vm_compute. apply NoDup_singleton.
  - exists views. split; [exact E|].
    rewrite E in Eall. injection Eall as <-. rewrite Hlen; [reflexivity|].
    intros e He. vm_compute in He. apply list_elem_of_singleton in He. subst e.
    exists (Campaign.mk 1 "Q1 Phish"). split; [left | reflexivity].
Defined.

(** ** References that the handlers keep *)

(** X11: [track_open] and [track_click] keep the events linked to
    campaigns: when every event of the store has a campaign row, so has
    every event of the store that either handler leaves, whatever the
    request. *)
Theorem open_and_click_keep_events_linked rt request email campaign_id d :
  linked d →
  linked (serve (track_open rt request email campaign_id) d).2
  ∧ linked (serve (track_click rt request email campaign_id) d).2.
Proof.
  intros Hd. rewrite serve_track_open, serve_track_click.
  destruct (first (filter _ (campaigns d))) as [c|] eqn:Hc; [|split; exact Hd].
  apply first_filter_elem in Hc. destruct Hc as [Hcin Hcid].
  destruct (first (filter _ (employees d))) as [m|]; [|split; exact Hd].
  split; intros e He; simpl in He; apply elem_of_app in He;
    (destruct He as [He | He];
     [apply Hd, He
     | apply list_elem_of_singleton in He; subst e; exists c; split; assumption]).
Qed.

Lemma open_and_click_keep_events_linked_witness :
  linked (serve (track_click cpython (browser []) "a@x.com" 1)
            (serve (track_open cpython (browser []) "a@x.com" 1) scenario).2).2.
Proof.
  apply (open_and_click_keep_events_linked cpython (browser []) "a@x.com" 1).
  apply (open_and_click_keep_events_linked cpython (browser []) "a@x.com" 1).
  intros e He. vm_compute in He. inversion He.
Defined.

(** X12: the four handlers that look the employee up by email keep the
    events attributed: when every event of the store carries the id and
    the email of one employee row, so does every event of the store that
    [track_open], [track_click], [track_reported] or [track_downloaded]
    leaves, whatever the request. *)
Theorem lookups_keep_events_attributed rt request email campaign_id d :
  attributed d →
  attributed (serve (track_open rt request email campaign_id) d).2
  ∧ attributed (serve (track_click rt request email campaign_id) d).2
  ∧ attributed (serve (track_reported rt request email campaign_id) d).2
  ∧ attributed (serve (track_downloaded rt request email campaign_id) d).2.
Proof.
  intros Hd.
  rewrite serve_track_open, serve_track_click, serve_track_reported,
    serve_track_downloaded.
  destruct (first (filter _ (employees d))) as [m|] eqn:Hm.
  - apply first_filter_elem in Hm. destruct Hm as [Hmin Hmail].
    assert (∀ row, Event.employee_id row = Employee.id m →
                   Event.email row = email →
                   attributed (set_events d (events d ++ [row]))) as Hstep.
    { intros row Hid Hem e He. simpl in He. apply elem_of_app in He.
      destruct He as [He | He]; [apply Hd, He|].
      apply list_elem_of_singleton in He. subst e.
      exists m. rewrite Hid, Hem. auto. }
    destruct (first (filter _ (campaigns d)));
      repeat split; try exact Hd; apply Hstep; reflexivity.
  - destruct (first (filter _ (campaigns d))); repeat split; exact Hd.
Qed.

Lemma lookups_keep_events_attributed_witness :
  attributed (serve (track_reported cpython (browser []) "a@x.com" 99)
                (serve (track_open cpython (browser []) "a@x.com" 1) scenario).2).2.
Proof.
  apply (lookups_keep_events_attributed cpython (browser []) "a@x.com" 99).
  apply (lookups_keep_events_attributed cpython (browser []) "a@x.com" 1).
  intros e He. vm_compute in He. inversion He.
Defined.
